(** * Sales dashboard: cumulative series and dashboard assembly

    A shallow embedding of [app/visualization.py] (with the data-source
    interface of [app/database.py]) and the properties of the running-total
    loop and of [create_interactive_dashboard]; then of the connector of
    [app/database.py] and of the view function of [app/main.py], over the
    calls of the database driver.

    Conventions of the embedding:
    - a row [{'date': d, 'sales': s}] is a record; sales amounts are exact
      integers ([Z], Python's [int]);
    - a Plotly figure is the record of the keyword arguments it was built
      from; [fig.to_html(...)] is kept as an unrendered node of [Html];
    - [db_connector.get_sales_data] runs a query against a live connection:
      it is a function of the product id and of the state of the world,
      which returns rows or raises, and leaves a new state of the world. *)

From stdpp Require Import base list strings numbers gmap.
From Stdlib Require Import QArith.

Local Open Scope string_scope.
Local Open Scope list_scope.
Local Open Scope Z_scope.

(** ** Data model *)

(** [datetime.date], as the database driver returns it for a DATE column. *)
Record date := Date { year : Z; month : Z; day : Z }.

(** One element of [sales_data]: [{'date': row[0], 'sales': row[1]}]. *)
Record Row := mkRow { row_date : date; row_sales : Z }.

(** One element of [products]:
    [{'product_id': row[0], 'product_name': row[1]}]. *)
Record Product := mkProduct { product_id : Z; product_name : string }.

(** [go.Scatter(x=..., y=..., mode=..., name=..., line=dict(color, width),
    marker=dict(size), fill=..., fillcolor=...)]. *)
Record Scatter := mkScatter {
  sc_x : list date;
  sc_y : list Z;
  sc_mode : string;
  sc_name : string;
  sc_line_color : string;
  sc_line_width : Z;
  sc_marker_size : Z;
  sc_fill : string;
  sc_fillcolor : string
}.

(** A dropdown button: [dict(label=..., method='update',
    args=[{'x': [dates], 'y': [cumulative_sales]}, {'title': ...}])]. *)
Record Button := mkButton {
  label : string;
  method : string;
  args_x : list (list date);
  args_y : list (list Z);
  args_title : string
}.

(** [dict(buttons=..., direction=..., showactive=..., x=..., xanchor=...,
    y=..., yanchor=...)]. *)
Record UpdateMenu := mkUpdateMenu {
  buttons : list Button;
  direction : string;
  showactive : bool;
  um_x : Q;
  um_xanchor : string;
  um_y : Q;
  um_yanchor : string
}.

Record Layout := mkLayout {
  title : string;
  xaxis_title : string;
  yaxis_title : string;
  hovermode : string;
  template : string;
  font_size : Z;
  height : Z;
  updatemenus : list UpdateMenu
}.

Record Figure := mkFigure { data : list Scatter; layout : Layout }.

(** What [create_interactive_dashboard] returns: a literal markup string, or
    [fig.to_html(include_plotlyjs=..., div_id=...)], whose rendering belongs
    to the plotting library. *)
Inductive Html :=
  | Literal (markup : string)
  | FigureToHtml (fig : Figure) (include_plotlyjs : string) (div_id : string).

(** ** The running-total loop *)

(** [[
    cumulative_sales = []
    running_total = 0
    for sale in sales:
        running_total += sale
        cumulative_sales.append(running_total)
    ]]
    The loop, from a given pair of [running_total] and [cumulative_sales];
    lines 27-31 and lines 83-87 of the module are the same text, and both are
    embedded by it. *)
Fixpoint running_total_loop (sales : list Z) (running_total : Z)
    (cumulative_sales : list Z) : list Z :=
  match sales with
  | [] => cumulative_sales
  | sale :: rest =>
      let running_total := running_total + sale in
      running_total_loop rest running_total (cumulative_sales ++ [running_total])
  end.

Definition cumulative (sales : list Z) : list Z := running_total_loop sales 0 [].

(** [f'Cumulative Sales Over Time - {product_name}'] *)
Definition chart_title (name : string) : string :=
  "Cumulative Sales Over Time - " +:+ name.

Definition create_sales_plot (sales_data : list Row) (name : string) : Figure :=
  let dates := row_date <$> sales_data in
  let sales := row_sales <$> sales_data in
  let cumulative_sales := cumulative sales in
  {| data := [ {| sc_x := dates;
                  sc_y := cumulative_sales;
                  sc_mode := "lines+markers";
                  sc_name := "Cumulative Sales";
                  sc_line_color := "#2ca02c";
                  sc_line_width := 2;
                  sc_marker_size := 8;
                  sc_fill := "tozeroy";
                  sc_fillcolor := "rgba(44, 160, 44, 0.1)" |} ];
     layout := {| title := chart_title name;
                  xaxis_title := "Date";
                  yaxis_title := "Cumulative Sales ($)";
                  hovermode := "x unified";
                  template := "plotly_white";
                  font_size := 12;
                  height := 500;
                  updatemenus := [] |} |}.

(** Python's [sum(amounts)]: a left-to-right sum from 0. *)
Definition sum_amounts (amounts : list Z) : Z := fold_left Z.add amounts 0.

(** ** Calls that may raise: state of the world and exceptions *)

(** The outcome of a call: the value it returns, or the exception that
    escapes it. *)
Inductive outcome (Exn A : Type) :=
  | Returns (a : A)
  | Raises (e : Exn).
Arguments Returns {Exn A} a.
Arguments Raises {Exn A} e.

(** A computation against a world of type [World] (the database behind the
    connector), which may raise an exception of type [Exn]. *)
Definition M (World Exn A : Type) : Type := World → outcome Exn A * World.

#[global] Instance M_ret {World Exn} : MRet (M World Exn) :=
  λ A a w, (Returns a, w).

#[global] Instance M_bind {World Exn} : MBind (M World Exn) :=
  λ A B k m w,
    match m w with
    | (Returns a, w') => k a w'
    | (Raises e, w') => (Raises e, w')
    end.

(** ** The dashboard *)

(** The [dict(label=..., method='update', args=[...])] appended for one
    product, from the rows fetched for it (lines 79-97). *)
Definition dropdown_button (product : Product) (product_sales : list Row) : Button :=
  let dates := row_date <$> product_sales in
  let sales := row_sales <$> product_sales in
  let cumulative_sales := cumulative sales in
  {| label := product_name product;
     method := "update";
     args_x := [dates];
     args_y := [cumulative_sales];
     args_title := chart_title (product_name product) |}.

(** [fig.update_layout(updatemenus=...)] *)
Definition update_layout_updatemenus (fig : Figure) (menus : list UpdateMenu) : Figure :=
  let l := layout fig in
  {| data := data fig;
     layout := {| title := title l;
                  xaxis_title := xaxis_title l;
                  yaxis_title := yaxis_title l;
                  hovermode := hovermode l;
                  template := template l;
                  font_size := font_size l;
                  height := height l;
                  updatemenus := menus |} |}.

Section Dashboard.
Context {World Exn : Type}.

(** [db_connector.get_sales_data(product_id)] *)
Variable get_sales_data : Z → M World Exn (list Row).

(** [for product in products: ...], from a given list [buttons]. *)
Fixpoint buttons_loop (products : list Product) (buttons : list Button)
    : M World Exn (list Button) :=
  match products with
  | [] => mret buttons
  | product :: rest =>
      product_sales ← get_sales_data (product_id product);
      buttons_loop rest (buttons ++ [dropdown_button product product_sales])
  end.

Definition create_interactive_dashboard (products : list Product)
    : M World Exn Html :=
  match products with
  | [] => mret (Literal "<p>No products available</p>")
  | first_product :: _ =>
      sales_data ← get_sales_data (product_id first_product);
      let fig := create_sales_plot sales_data (product_name first_product) in
      buttons ← buttons_loop products [];
      let fig :=
        update_layout_updatemenus fig
          [ {| buttons := buttons;
               direction := "down";
               showactive := true;
               um_x := 17 # 100;
               um_xanchor := "left";
               um_y := 115 # 100;
               um_yanchor := "top" |} ] in
      mret (FigureToHtml fig "cdn" "sales-plot")
  end.

(** The queries for a list of product ids, one after the other, up to the
    first one that raises. *)
Fixpoint fetch_all (ids : list Z) : M World Exn (list (list Row)) :=
  match ids with
  | [] => mret []
  | pid :: rest =>
      rows ← get_sales_data pid;
      rowss ← fetch_all rest;
      mret (rows :: rowss)
  end.
End Dashboard.

(** The product ids [create_interactive_dashboard] asks the data source for,
    in the order of the calls in its text: line 73, then line 78 for every
    product. *)
Definition call_ids (products : list Product) : list Z :=
  match products with
  | [] => []
  | first_product :: _ => product_id first_product :: (product_id <$> products)
  end.

(** The page built from the rows fetched for the first product and from the
    buttons of the loop (lines 74 and 100-114). *)
Definition dashboard_page (first_product : Product) (sales_data : list Row)
    (dropdown : list Button) : Html :=
  FigureToHtml
    (update_layout_updatemenus
       (create_sales_plot sales_data (product_name first_product))
       [ {| buttons := dropdown;
            direction := "down";
            showactive := true;
            um_x := 17 # 100;
            um_xanchor := "left";
            um_y := 115 # 100;
            um_yanchor := "top" |} ])
    "cdn" "sales-plot".

(** A data source that also records the product id of every call made to it. *)
Definition traced {World Exn} (get_sales_data : Z → M World Exn (list Row))
    : Z → M (World * list Z) Exn (list Row) :=
  λ pid '(w, calls),
    let '(r, w') := get_sales_data pid w in (r, (w', calls ++ [pid])).

(** A data source whose answers depend on the product id alone. *)
Definition pure_source {Exn} (table : Z → outcome Exn (list Row))
    : Z → M unit Exn (list Row) :=
  λ pid w, (table pid, w).

(** ** The artifact, as the dashboard's reader sees it *)

(** A cumulative series: the dates and the running totals, as the two
    arrays Plotly is given. *)
Definition series : Type := list date * list Z.

Definition series_of (rows : list Row) : series :=
  (row_date <$> rows, cumulative (row_sales <$> rows)).

(** The buttons of the dropdown; a literal page has none. *)
Definition selector (page : Html) : list Button :=
  match page with
  | Literal _ => []
  | FigureToHtml fig _ _ => mjoin (buttons <$> updatemenus (layout fig))
  end.

(** The series a figure draws: the arrays of its one trace. *)
Definition figure_series (fig : Figure) : option series :=
  match data fig with
  | [trace] => Some (sc_x trace, sc_y trace)
  | _ => None
  end.

(** The series of the chart drawn at first; a literal page draws none. *)
Definition visible_series (page : Html) : option series :=
  match page with
  | Literal _ => None
  | FigureToHtml fig _ _ => figure_series fig
  end.

(** The arrays a button's update payload puts in place of the trace's. *)
Definition target_series (b : Button) : option series :=
  match args_x b, args_y b with
  | [xs], [ys] => Some (xs, ys)
  | _, _ => None
  end.

Definition selector_series (page : Html) (k : nat) : option series :=
  selector page !! k ≫= target_series.

#[global] Instance date_eq_dec : EqDecision date.
Proof. solve_decision. Defined.

(** ** Concrete data sources *)

(** Exceptions of the concrete data sources below: what the database driver
    raises when a query fails, and the condition a data source may raise to
    name the product it could not serve. *)
Inductive py_exn :=
  | OperationalError (msg : string)
  | DataUnavailable (pid : Z).

#[global] Instance py_exn_eq_dec : EqDecision py_exn.
Proof. solve_decision. Defined.

Definition product_A : Product := mkProduct 1 "A".
Definition product_B : Product := mkProduct 2 "B".

(** fetch(1) = [{2024-01-01, 10}, {2024-01-02, 5}],
    fetch(2) = [{2024-01-01, -3}], no rows for any other product. *)
Definition two_products_table (pid : Z) : outcome py_exn (list Row) :=
  if decide (pid = 1) then
    Returns [mkRow (Date 2024 1 1) 10; mkRow (Date 2024 1 2) 5]
  else if decide (pid = 2) then
    Returns [mkRow (Date 2024 1 1) (-3)]
  else Returns [].

(** A product without recorded sales: the query returns no row. *)
Definition no_sales_table (pid : Z) : outcome py_exn (list Row) := Returns [].

(** A table that gains a sale between two queries: the world is the amount
    sold so far on 2024-01-01, and every query is followed by one more sale
    of 1. *)
Definition growing_source (pid : Z) : M Z py_exn (list Row) :=
  λ sold, (Returns [mkRow (Date 2024 1 1) sold], sold + 1).

(** Five products, the query for the third of which is refused by the
    database driver. *)
Definition five_products : list Product :=
  [mkProduct 1 "A"; mkProduct 2 "B"; mkProduct 3 "C"; mkProduct 4 "D";
   mkProduct 5 "E"].

(** A table whose query for product [failing] raises [e]; every other
    product has one sale. *)
Definition failing_table (failing : Z) (e : py_exn) (pid : Z)
    : outcome py_exn (list Row) :=
  if decide (pid = failing) then Raises e
  else Returns [mkRow (Date 2024 1 1) pid].

Definition third_fails_table : Z → outcome py_exn (list Row) :=
  failing_table 3 (OperationalError "connection lost").

Definition third_unavailable_table : Z → outcome py_exn (list Row) :=
  failing_table 3 (DataUnavailable 3).

(** ** The database connector ([app/database.py]) *)

(** [self.connection_params]: the keyword arguments of [psycopg2.connect]. *)
Record ConnectionParams := mkConnectionParams {
  host : string;
  database : string;
  user : string;
  password : string;
  port : Z
}.

(** What the connector relies on, and does not define: the calls of the
    database driver, each of which may raise and may change the database
    behind it, and the [AttributeError] Python raises when an attribute of
    [None] is asked for. [cursor.fetchall()] is read at the column types of
    the statement just executed: (integer, text) for the products, (date,
    amount) for the sales. *)
Record Driver (Db Conn Cursor Exn : Type) := mkDriver {
  psycopg2_connect : ConnectionParams → M Db Exn Conn;
  connection_close : Conn → M Db Exn ();
  connection_cursor : Conn → M Db Exn Cursor;
  cursor_execute : Cursor → string → list Z → M Db Exn ();
  cursor_fetchall_products : Cursor → M Db Exn (list (Z * string));
  cursor_fetchall_sales : Cursor → M Db Exn (list (date * Z));
  cursor_close : Cursor → M Db Exn ();
  AttributeError : string → Exn
}.
Arguments psycopg2_connect {Db Conn Cursor Exn} _ _.
Arguments connection_close {Db Conn Cursor Exn} _ _.
Arguments connection_cursor {Db Conn Cursor Exn} _ _.
Arguments cursor_execute {Db Conn Cursor Exn} _ _ _ _.
Arguments cursor_fetchall_products {Db Conn Cursor Exn} _ _.
Arguments cursor_fetchall_sales {Db Conn Cursor Exn} _ _.
Arguments cursor_close {Db Conn Cursor Exn} _ _.
Arguments AttributeError {Db Conn Cursor Exn} _ _.

(** The attributes of a [DatabaseConnector] object. *)
Record DatabaseConnector (Conn : Type) := mkDatabaseConnector {
  connection_params : ConnectionParams;
  connection : option Conn
}.
Arguments mkDatabaseConnector {Conn} _ _.
Arguments connection_params {Conn} _.
Arguments connection {Conn} _.

(** [DatabaseConnector.__init__]; the caller of this repository leaves
    [port] to its default, 5432. *)
Definition DatabaseConnector_init {Conn : Type}
    (host database user password : string) (port : Z) : DatabaseConnector Conn :=
  {| connection_params := {| host := host;
                             database := database;
                             user := user;
                             password := password;
                             port := port |};
     connection := None |}.

(** The statement of [get_all_products]. *)
Definition products_sql : string :=
  "SELECT product_id, product_name FROM products".

(** The statement of [get_sales_data], with the line breaks and the
    indentation of the source. *)
Definition sales_sql : string :=
  "
            SELECT date, sales 
            FROM sales_data 
            WHERE product_id = %s 
            ORDER BY date
        ".

Section Connector.
Context {Db Conn Cursor Exn : Type}.
Variable driver : Driver Db Conn Cursor Exn.

(** The methods run against the connector object and the database. *)
Definition connector_state : Type := DatabaseConnector Conn * Db.

(** [self.connection] *)
Definition read_connection : M connector_state Exn (option Conn) :=
  λ '(self, db), (Returns (connection self), (self, db)).

(** [self.connection_params] *)
Definition read_connection_params : M connector_state Exn ConnectionParams :=
  λ '(self, db), (Returns (connection_params self), (self, db)).

(** [self.connection = value] *)
Definition write_connection (value : option Conn) : M connector_state Exn () :=
  λ '(self, db),
    (Returns (),
     ({| connection_params := connection_params self; connection := value |},
      db)).

(** A call of the driver: the connector object is not touched. *)
Definition driver_call {A : Type} (call : M Db Exn A) : M connector_state Exn A :=
  λ '(self, db), let '(r, db') := call db in (r, (self, db')).

Definition raise {A : Type} (e : Exn) : M connector_state Exn A :=
  λ s, (Raises e, s).

(** [self.connection = psycopg2.connect(...)], with the entries of
    [self.connection_params] as keyword arguments. *)
Definition connect : M connector_state Exn () :=
  params ← read_connection_params;
  conn ← driver_call (psycopg2_connect driver params);
  write_connection (Some conn).

(** [[
    if self.connection:
        self.connection.close()
        self.connection = None
    ]] *)
Definition disconnect : M connector_state Exn () :=
  current ← read_connection;
  match current with
  | Some conn =>
      driver_call (connection_close driver conn);;
      write_connection None
  | None => mret ()
  end.

(** [self.connection.cursor()]: on [None] the attribute [cursor] does not
    exist. *)
Definition self_connection_cursor : M connector_state Exn Cursor :=
  current ← read_connection;
  match current with
  | Some conn => driver_call (connection_cursor driver conn)
  | None =>
      raise (AttributeError driver "'NoneType' object has no attribute 'cursor'")
  end.

Definition get_all_products : M connector_state Exn (list Product) :=
  cursor ← self_connection_cursor;
  driver_call (cursor_execute driver cursor products_sql []);;
  rows ← driver_call (cursor_fetchall_products driver cursor);
  driver_call (cursor_close driver cursor);;
  mret ((λ row, {| product_id := row.1; product_name := row.2 |}) <$> rows).

Definition get_sales_data (pid : Z) : M connector_state Exn (list Row) :=
  cursor ← self_connection_cursor;
  driver_call (cursor_execute driver cursor sales_sql [pid]);;
  rows ← driver_call (cursor_fetchall_sales driver cursor);
  driver_call (cursor_close driver cursor);;
  mret ((λ row, {| row_date := row.1; row_sales := row.2 |}) <$> rows).
End Connector.

(** ** The page of the application ([app/main.py]) *)

(** [os.getenv(key, default)], on the environment of the process. *)
Definition getenv (environ : gmap string string) (key default_value : string)
    : string :=
  default default_value (environ !! key).

(** [render_template_string(html_template, dashboard_html=dashboard_html)],
    unrendered: the template is the literal of lines 38-70, which puts
    [dashboard_html] inside its container. *)
Inductive Response :=
  | RenderTemplateString (dashboard_html : Html).

(** [try: body finally: finalizer]: the finalizer runs whatever the body
    did; what it raises replaces the outcome of the body. *)
Definition try_finally {State Exn A : Type}
    (body : M State Exn A) (finalizer : M State Exn ()) : M State Exn A :=
  λ s,
    let '(r, s1) := body s in
    match finalizer s1 with
    | (Returns _, s2) => (r, s2)
    | (Raises e, s2) => (Raises e, s2)
    end.

(** The view function of the route ["/"]. The connector [db] is an object of
    the call: it is created here and is out of reach when the call ends. *)
Definition index {Db Conn Cursor Exn : Type} (driver : Driver Db Conn Cursor Exn)
    (environ : gmap string string) : M Db Exn Response :=
  λ w,
    let db_host := getenv environ "DB_HOST" "localhost" in
    let db_name := getenv environ "DB_NAME" "sales_db" in
    let db_user := getenv environ "DB_USER" "postgres" in
    let db_password := getenv environ "DB_PASSWORD" "password" in
    let db := DatabaseConnector_init db_host db_name db_user db_password 5432 in
    let '(r, (_, w')) :=
      (connect driver;;
       try_finally
         (products ← get_all_products driver;
          dashboard_html ←
            create_interactive_dashboard (get_sales_data driver) products;
          mret (RenderTemplateString dashboard_html))
         (disconnect driver))
        (db, w) in
    (r, w').

(** ** A driver that records its calls *)

Inductive driver_call_record (Conn Cursor : Type) :=
  | CallConnect (params : ConnectionParams)
  | CallClose (conn : Conn)
  | CallCursor (conn : Conn)
  | CallExecute (cursor : Cursor) (query : string) (args : list Z)
  | CallFetchall (cursor : Cursor)
  | CallCursorClose (cursor : Cursor).
Arguments CallConnect {Conn Cursor} _.
Arguments CallClose {Conn Cursor} _.
Arguments CallCursor {Conn Cursor} _.
Arguments CallExecute {Conn Cursor} _ _ _.
Arguments CallFetchall {Conn Cursor} _.
Arguments CallCursorClose {Conn Cursor} _.

(** The call [call], with [entry] added to the record of calls once it is
    over, whether it returned or raised. *)
Definition recorded {Db Exn A C : Type} (entry : C) (call : M Db Exn A)
    : M (Db * list C) Exn A :=
  λ '(w, log), let '(r, w') := call w in (r, (w', log ++ [entry])).

Definition logged {Db Conn Cursor Exn : Type} (driver : Driver Db Conn Cursor Exn)
    : Driver (Db * list (driver_call_record Conn Cursor)) Conn Cursor Exn :=
  {| psycopg2_connect params :=
       recorded (CallConnect params) (psycopg2_connect driver params);
     connection_close conn :=
       recorded (CallClose conn) (connection_close driver conn);
     connection_cursor conn :=
       recorded (CallCursor conn) (connection_cursor driver conn);
     cursor_execute cursor query args :=
       recorded (CallExecute cursor query args)
         (cursor_execute driver cursor query args);
     cursor_fetchall_products cursor :=
       recorded (CallFetchall cursor) (cursor_fetchall_products driver cursor);
     cursor_fetchall_sales cursor :=
       recorded (CallFetchall cursor) (cursor_fetchall_sales driver cursor);
     cursor_close cursor :=
       recorded (CallCursorClose cursor) (cursor_close driver cursor);
     AttributeError := AttributeError driver |}.

(** The calls that open or close a connection. *)
Definition is_connection_call {Conn Cursor : Type}
    (c : driver_call_record Conn Cursor) : bool :=
  match c with
  | CallConnect _ | CallClose _ => true
  | _ => false
  end.

(** A stretch of calls none of which opens or closes a connection. *)
Definition only_queries {Conn Cursor : Type}
    (l : list (driver_call_record Conn Cursor)) : Prop :=
  Forall (λ c, is_connection_call c = false) l.

(** The record of calls has grown, by such a stretch. *)
Definition log_grows {Db Conn Cursor : Type}
    : relation (Db * list (driver_call_record Conn Cursor)) :=
  λ s s', ∃ l, s'.2 = s.2 ++ l ∧ only_queries l.


(** ** The queries, against an open connection *)

(** What [get_all_products] asks the driver once [self.connection] has been
    read and is the open connection [conn]. *)
Definition products_query {Db Conn Cursor Exn : Type}
    (driver : Driver Db Conn Cursor Exn) (conn : Conn) : M Db Exn (list Product) :=
  cursor ← connection_cursor driver conn;
  cursor_execute driver cursor products_sql [];;
  rows ← cursor_fetchall_products driver cursor;
  cursor_close driver cursor;;
  mret ((λ row, {| product_id := row.1; product_name := row.2 |}) <$> rows).

(** The same for [get_sales_data]. *)
Definition sales_query {Db Conn Cursor Exn : Type}
    (driver : Driver Db Conn Cursor Exn) (conn : Conn) (pid : Z)
    : M Db Exn (list Row) :=
  cursor ← connection_cursor driver conn;
  cursor_execute driver cursor sales_sql [pid];;
  rows ← cursor_fetchall_sales driver cursor;
  cursor_close driver cursor;;
  mret ((λ row, {| row_date := row.1; row_sales := row.2 |}) <$> rows).

(** The connection parameters [index] builds from the environment. *)
Definition index_connection_params (environ : gmap string string)
    : ConnectionParams :=
  {| host := getenv environ "DB_HOST" "localhost";
     database := getenv environ "DB_NAME" "sales_db";
     user := getenv environ "DB_USER" "postgres";
     password := getenv environ "DB_PASSWORD" "password";
     port := 5432 |}.

(** What [index] does between [db.connect()] and [db.disconnect()], against
    the open connection [conn]. *)
Definition index_body {Db Conn Cursor Exn : Type}
    (driver : Driver Db Conn Cursor Exn) (conn : Conn) : M Db Exn Response :=
  products ← products_query driver conn;
  dashboard_html ← create_interactive_dashboard (sales_query driver conn) products;
  mret (RenderTemplateString dashboard_html).

(** ** A driver in memory *)

Inductive driver_exn :=
  | PyAttributeError (msg : string)
  | DatabaseError (msg : string).

(** A database with the given rows of products and the sales of
    [two_products_table]. Its state is the arguments of the last statement
    executed; connections and cursors are numbers; [close_error] is what
    closing the connection raises, if anything. *)
Definition memory_driver_with (products : list (Z * string))
    (close_error : option driver_exn) : Driver (list Z) nat nat driver_exn :=
  {| psycopg2_connect params := λ db, (Returns 1%nat, db);
     connection_close conn := λ db,
       (match close_error with Some e => Raises e | None => Returns () end, db);
     connection_cursor conn := λ db, (Returns 7%nat, db);
     cursor_execute cursor query args := λ db, (Returns (), args);
     cursor_fetchall_products cursor := λ db, (Returns products, db);
     cursor_fetchall_sales cursor := λ db,
       (match db with
        | [pid] =>
            if decide (pid = 1) then
              Returns [(Date 2024 1 1, 10); (Date 2024 1 2, 5)]
            else if decide (pid = 2) then Returns [(Date 2024 1 1, -3)]
            else Returns []
        | _ => Returns []
        end, db);
     cursor_close cursor := λ db, (Returns (), db);
     AttributeError := PyAttributeError |}.

(** The products A and B, and a connection that closes. *)
Definition memory_driver : Driver (list Z) nat nat driver_exn :=
  memory_driver_with [(1, "A"); (2, "B")] None.

(** ** Readings of a page used by the properties *)

(** The amounts behind a list of running totals: every total minus the one
    before it, the first one minus [previous]. It is not part of the program:
    it is how a reader of the chart gets the sales of one day back. *)
Fixpoint differences (previous : Z) (totals : list Z) : list Z :=
  match totals with
  | [] => []
  | total :: rest => (total - previous) :: differences total rest
  end.

(** The title of the chart drawn at first; a literal page has none. *)
Definition page_title (page : Html) : option string :=
  match page with
  | Literal _ => None
  | FigureToHtml fig _ _ => Some (title (layout fig))
  end.

(** A series Plotly can draw: as many dates as running totals. *)
Definition well_formed (s : option series) : Prop :=
  ∃ dates totals, s = Some (dates, totals) ∧ length dates = length totals.

(** * Properties *)

(** ** The running-total loop *)

Section RunningTotal.
Implicit Types (sales : list Z) (running_total : Z) (acc : list Z).

(** What was appended before the loop started stays in front. *)
Lemma running_total_loop_acc sales running_total acc :
  running_total_loop sales running_total acc
  = acc ++ running_total_loop sales running_total [].
Proof.
  revert running_total acc.
  induction sales as [|sale rest IH]; intros t acc; simpl.
  - by rewrite app_nil_r.
  - rewrite (IH _ (acc ++ _)), (IH _ [_]). by rewrite <-app_assoc.
Qed.

Lemma running_total_loop_cons sale rest running_total :
  running_total_loop (sale :: rest) running_total []
  = (running_total + sale)
      :: running_total_loop rest (running_total + sale) [].
Proof. simpl. by rewrite running_total_loop_acc. Qed.

Lemma running_total_loop_length sales running_total :
  length (running_total_loop sales running_total []) = length sales.
Proof.
  revert running_total.
  induction sales as [|sale rest IH]; intros t; [done|].
  rewrite running_total_loop_cons. simpl. by rewrite IH.
Qed.

(** The entry of index [i] is the running total the loop started from,
    plus the first [i + 1] amounts, added from left to right. *)
Lemma running_total_loop_lookup sales running_total (i : nat) :
  (i < length sales)%nat →
  running_total_loop sales running_total [] !! i
  = Some (fold_left Z.add (take (S i) sales) running_total).
Proof.
  revert running_total i.
  induction sales as [|sale rest IH]; intros t i Hi; simpl in Hi; [lia|].
  rewrite running_total_loop_cons.
  destruct i as [|i].
  - done.
  - simpl. by rewrite IH by lia.
Qed.

Lemma cumulative_length sales : length (cumulative sales) = length sales.
Proof. apply running_total_loop_length. Qed.

Lemma cumulative_lookup sales (i : nat) :
  (i < length sales)%nat →
  cumulative sales !! i = Some (sum_amounts (take (S i) sales)).
Proof. apply running_total_loop_lookup. Qed.

Lemma sum_amounts_snoc sales amount :
  sum_amounts (sales ++ [amount]) = sum_amounts sales + amount.
Proof. unfold sum_amounts. by rewrite fold_left_app. Qed.

(** Two neighbours of the cumulative list differ by the amount of the
    second. *)
Lemma cumulative_step sales (i : nat) a b :
  cumulative sales !! i = Some a →
  cumulative sales !! S i = Some b →
  ∃ amount, sales !! S i = Some amount ∧ b = a + amount.
Proof.
  intros Ha Hb.
  assert (S i < length sales)%nat as Hlt.
  { rewrite <-cumulative_length. by eapply lookup_lt_Some. }
  destruct (lookup_lt_is_Some_2 sales (S i) Hlt) as [amount Hamount].
  exists amount. split; [done|].
  rewrite cumulative_lookup in Ha, Hb by lia.
  rewrite (take_S_r _ _ _ Hamount), sum_amounts_snoc in Hb.
  congruence.
Qed.
End RunningTotal.

Lemma figure_series_sales_plot sales_data name :
  figure_series (create_sales_plot sales_data name) = Some (series_of sales_data).
Proof. reflexivity. Qed.

(** C1. For every sequence of sales points, the series drawn by
    [create_sales_plot] has as many dates and as many running totals as there
    are points; at every index the date is that of the point, and the running
    total is the sum of the amounts of the points up to and including that
    index, added from left to right. *)
Theorem create_sales_plot_prefix_sums (sales_data : list Row) (name : string) :
  ∃ dates totals,
    figure_series (create_sales_plot sales_data name) = Some (dates, totals) ∧
    length dates = length sales_data ∧
    length totals = length sales_data ∧
    ∀ (i : nat) (point : Row),
      sales_data !! i = Some point →
      dates !! i = Some (row_date point) ∧
      totals !! i = Some (sum_amounts (row_sales <$> take (S i) sales_data)).
Proof.
  eexists _, _. split; [apply figure_series_sales_plot|].
  rewrite cumulative_length, !length_fmap.
  split; [done|]. split; [done|].
  intros i point Hpoint. split.
  - by rewrite list_lookup_fmap, Hpoint.
  - rewrite fmap_take. apply cumulative_lookup.
    rewrite length_fmap. by eapply lookup_lt_Some.
Qed.

(** C7. The running-total loop of [create_sales_plot] accepts every input:
    whatever the signs of the amounts, the plot has one date and one running
    total per point; no point gives the empty series, and a single point
    gives its own amount as the running total. *)
Theorem accumulator_total :
  (∀ (sales_data : list Row) (name : string),
     ∃ dates totals,
       figure_series (create_sales_plot sales_data name) = Some (dates, totals) ∧
       length dates = length sales_data ∧
       length totals = length sales_data) ∧
  (∀ name : string,
     figure_series (create_sales_plot [] name) = Some ([], [])) ∧
  (∀ (d : date) (amount : Z) (name : string),
     figure_series (create_sales_plot [mkRow d amount] name)
     = Some ([d], [amount])).
Proof.
  split; [|split].
  - intros sales_data name. eexists _, _.
    split; [apply figure_series_sales_plot|].
    by rewrite cumulative_length, !length_fmap.
  - done.
  - intros d amount name. rewrite figure_series_sales_plot.
    unfold series_of, cumulative. simpl. by rewrite Z.add_0_l.
Qed.

(** C10. When no amount is negative, the running totals drawn by
    [create_sales_plot] never decrease from one index to the next. *)
Theorem running_totals_nondecreasing (sales_data : list Row) (name : string)
    (dates : list date) (totals : list Z) (i : nat) (a b : Z) :
  Forall (λ point, 0 ≤ row_sales point) sales_data →
  figure_series (create_sales_plot sales_data name) = Some (dates, totals) →
  totals !! i = Some a →
  totals !! S i = Some b →
  a ≤ b.
Proof.
  intros Hpos Hfig Ha Hb.
  rewrite figure_series_sales_plot in Hfig. injection Hfig as _ <-.
  destruct (cumulative_step _ _ _ _ Ha Hb) as (amount & Hamount & ->).
  rewrite list_lookup_fmap in Hamount.
  destruct (sales_data !! S i) as [point|] eqn:Hpoint; [|done].
  injection Hamount as <-.
  rewrite Forall_lookup in Hpos. specialize (Hpos _ _ Hpoint). simpl in Hpos.
  lia.
Qed.

Lemma running_totals_nondecreasing_witness :
  (3 : Z) ≤ 3 ∧ (3 : Z) ≤ 7.
Proof.
  pose (sales_data := [mkRow (Date 2024 1 1) 3; mkRow (Date 2024 1 2) 0;
                       mkRow (Date 2024 1 3) 4]).
  assert (Forall (λ point, 0 ≤ row_sales point) sales_data) as Hpos.
  { repeat constructor; simpl; lia. }
  split.
  - apply (running_totals_nondecreasing sales_data "A" _ _ 0%nat 3 3 Hpos
             eq_refl eq_refl eq_refl).
  - apply (running_totals_nondecreasing sales_data "A" _ _ 1%nat 3 7 Hpos
             eq_refl eq_refl eq_refl).
Defined.

(** ** The dashboard, as a function of the answers of the data source *)

Lemma selector_dashboard_page first_product sales_data dropdown :
  selector (dashboard_page first_product sales_data dropdown) = dropdown.
Proof. simpl. apply app_nil_r. Qed.

Lemma visible_series_dashboard_page first_product sales_data dropdown :
  visible_series (dashboard_page first_product sales_data dropdown)
  = Some (series_of sales_data).
Proof. reflexivity. Qed.

Lemma target_series_dropdown_button product product_sales :
  target_series (dropdown_button product product_sales)
  = Some (series_of product_sales).
Proof. reflexivity. Qed.

Lemma labels_dropdown_buttons (products : list Product) (rowss : list (list Row)) :
  length rowss = length products →
  label <$> zip_with dropdown_button products rowss = product_name <$> products.
Proof.
  revert rowss.
  induction products as [|product rest IH]; intros [|rows rowss] Hlen;
    simplify_eq/=; [done|].
  f_equal. by apply IH.
Qed.

Lemma targets_dropdown_buttons (products : list Product) (rowss : list (list Row)) :
  length rowss = length products →
  target_series <$> zip_with dropdown_button products rowss
  = (Some ∘ series_of) <$> rowss.
Proof.
  revert rowss.
  induction products as [|product rest IH]; intros [|rows rowss] Hlen;
    simplify_eq/=; [done|].
  f_equal. by apply IH.
Qed.

Section DashboardFacts.
Context {World Exn : Type}.
Variable fetch : Z → M World Exn (list Row).

Lemma fetch_all_cons pid ids w :
  fetch_all fetch (pid :: ids) w
  = match fetch pid w with
    | (Returns rows, w1) =>
        match fetch_all fetch ids w1 with
        | (Returns rowss, w2) => (Returns (rows :: rowss), w2)
        | (Raises e, w2) => (Raises e, w2)
        end
    | (Raises e, w1) => (Raises e, w1)
    end.
Proof. reflexivity. Qed.

Lemma fetch_all_length ids w rowss w' :
  fetch_all fetch ids w = (Returns rowss, w') → length rowss = length ids.
Proof.
  revert w rowss.
  induction ids as [|pid ids IH]; intros w rowss.
  - by intros [= <- _].
  - rewrite fetch_all_cons.
    destruct (fetch pid w) as [[rows|e] w1]; [|done].
    destruct (fetch_all fetch ids w1) as [[rowss'|e] w2] eqn:Hrest; [|done].
    intros [= <- <-]. simpl. f_equal. by eapply IH.
Qed.

(** The queries of two lists of ids, one list after the other. *)
Lemma fetch_all_app ids1 ids2 w :
  fetch_all fetch (ids1 ++ ids2) w
  = match fetch_all fetch ids1 w with
    | (Returns rowss1, w1) =>
        match fetch_all fetch ids2 w1 with
        | (Returns rowss2, w2) => (Returns (rowss1 ++ rowss2), w2)
        | (Raises e, w2) => (Raises e, w2)
        end
    | (Raises e, w1) => (Raises e, w1)
    end.
Proof.
  revert w.
  induction ids1 as [|pid ids1 IH]; intros w.
  - simpl. unfold mret, M_ret.
    by destruct (fetch_all fetch ids2 w) as [[rowss2|e] w2].
  - rewrite <-app_comm_cons, !fetch_all_cons.
    destruct (fetch pid w) as [[rows|e] w1]; [|done].
    rewrite IH.
    destruct (fetch_all fetch ids1 w1) as [[rowss1|e] w2]; [|done].
    by destruct (fetch_all fetch ids2 w2) as [[rowss2|e] w3].
Qed.

(** The loop makes the queries of the products in order, and appends one
    button per answer. *)
Lemma buttons_loop_run products acc w :
  buttons_loop fetch products acc w
  = match fetch_all fetch (product_id <$> products) w with
    | (Returns rowss, w') =>
        (Returns (acc ++ zip_with dropdown_button products rowss), w')
    | (Raises e, w') => (Raises e, w')
    end.
Proof.
  revert acc w.
  induction products as [|product rest IH]; intros acc w.
  - simpl. unfold mret, M_ret. by rewrite app_nil_r.
  - rewrite fmap_cons, fetch_all_cons. simpl. unfold mbind, M_bind.
    destruct (fetch (product_id product) w) as [[rows|e] w1]; [|done].
    rewrite IH.
    destruct (fetch_all fetch (product_id <$> rest) w1) as [[rowss|e] w2];
      [|done].
    simpl. by rewrite <-app_assoc.
Qed.

(** The dashboard makes the queries of [call_ids]; the first answer is
    drawn, the others fill the dropdown. *)
Lemma dashboard_run first_product others w :
  create_interactive_dashboard fetch (first_product :: others) w
  = match fetch_all fetch (call_ids (first_product :: others)) w with
    | (Returns rowss, w') =>
        (Returns
           (dashboard_page first_product (hd [] rowss)
              (zip_with dropdown_button (first_product :: others) (tl rowss))),
         w')
    | (Raises e, w') => (Raises e, w')
    end.
Proof.
  unfold call_ids. rewrite fetch_all_cons.
  unfold create_interactive_dashboard, mbind, M_bind.
  destruct (fetch (product_id first_product) w) as [[rows0|e] w1]; [|done].
  rewrite buttons_loop_run.
  by destruct (fetch_all fetch (product_id <$> first_product :: others) w1)
    as [[rowss|e] w2].
Qed.

(** A source that never raises answers every list of queries. *)
Lemma fetch_all_returns ids w :
  (∀ pid w0, ∃ rows w1, fetch pid w0 = (Returns rows, w1)) →
  ∃ rowss w', fetch_all fetch ids w = (Returns rowss, w').
Proof.
  intros Htotal. revert w.
  induction ids as [|pid ids IH]; intros w; [by eexists _, _|].
  rewrite fetch_all_cons.
  destruct (Htotal pid w) as (rows & w1 & ->).
  destruct (IH w1) as (rowss & w2 & ->). by eexists _, _.
Qed.

(** With a source that never raises, the dashboard returns a page. *)
Lemma dashboard_returns products w :
  (∀ pid w0, ∃ rows w1, fetch pid w0 = (Returns rows, w1)) →
  ∃ page w', create_interactive_dashboard fetch products w = (Returns page, w').
Proof.
  intros Htotal. destruct products as [|first_product others].
  - by eexists _, _.
  - rewrite dashboard_run.
    destruct (fetch_all_returns (call_ids (first_product :: others)) w Htotal)
      as (rowss & w' & ->).
    by eexists _, _.
Qed.

End DashboardFacts.

(** The record of calls of a traced source grows by the ids queried. *)
Lemma traced_fetch_all_returns {World Exn} (fetch : Z → M World Exn (list Row))
    ids w calls rowss w' calls' :
  fetch_all (traced fetch) ids (w, calls) = (Returns rowss, (w', calls')) →
  fetch_all fetch ids w = (Returns rowss, w') ∧ calls' = calls ++ ids.
Proof.
  revert w calls rowss.
  induction ids as [|pid ids IH]; intros w calls rowss.
  - intros [= <- <- <-]. by rewrite app_nil_r.
  - rewrite (fetch_all_cons (traced fetch)), (fetch_all_cons fetch).
    unfold traced at 1.
    destruct (fetch pid w) as [[rows|e] w1]; [|done].
    destruct (fetch_all (traced fetch) ids (w1, calls ++ [pid]))
      as [[rowss'|e] [w2 calls2]] eqn:Hrest; [|done].
    intros [= <- <- <-].
    destruct (IH _ _ _ Hrest) as [-> ->].
    by rewrite <-app_assoc.
Qed.

(** ** The visible chart and the first entry of the dropdown *)

(** C2, as the code has it. The chart drawn at first comes from the query of
    line 73 and the first entry of the dropdown from the query of line 78:
    when the second query for the first product answers with the rows of the
    first one, the series drawn at first is the series of the first entry. *)
Theorem visible_is_first_entry_when_reread_agrees {World Exn : Type}
    (fetch : Z → M World Exn (list Row))
    (first_product : Product) (others : list Product)
    (w w' : World) (page : Html) :
  (∀ rows w1,
     fetch (product_id first_product) w = (Returns rows, w1) →
     ∃ w2, fetch (product_id first_product) w1 = (Returns rows, w2)) →
  create_interactive_dashboard fetch (first_product :: others) w
  = (Returns page, w') →
  is_Some (visible_series page) ∧
  visible_series page = selector_series page 0.
Proof.
  intros Hreread.
  rewrite dashboard_run. unfold call_ids.
  rewrite fetch_all_cons.
  destruct (fetch (product_id first_product) w) as [[rows0|e] w1] eqn:Hfirst;
    [|done].
  destruct (Hreread rows0 w1 eq_refl) as [w2 Hsecond].
  rewrite fmap_cons, fetch_all_cons, Hsecond.
  destruct (fetch_all fetch (product_id <$> others) w2) as [[rowss|e] w3];
    [|done].
  intros [= <- <-].
  unfold selector_series.
  rewrite visible_series_dashboard_page, selector_dashboard_page.
  split; [by eexists|done].
Qed.

Lemma visible_is_first_entry_when_reread_agrees_witness :
  ∃ page,
    create_interactive_dashboard (pure_source two_products_table)
      [product_A; product_B] tt = (Returns page, tt) ∧
    is_Some (visible_series page) ∧
    visible_series page = selector_series page 0.
Proof.
  eexists. split; [reflexivity|].
  apply (visible_is_first_entry_when_reread_agrees
           (pure_source two_products_table) product_A [product_B] tt tt).
  - intros rows w1 [= <- <-]. exists tt. reflexivity.
  - reflexivity.
Defined.

(** C2 fails as stated: with a table that gains a sale between the two
    queries for product A, the chart drawn at first shows 0 and the first
    entry of the dropdown shows 1. *)
Lemma visible_drifts_from_first_entry :
  ∃ page w',
    create_interactive_dashboard growing_source [product_A] 0
    = (Returns page, w') ∧
    visible_series page = Some ([Date 2024 1 1], [0]) ∧
    selector_series page 0 = Some ([Date 2024 1 1], [1]) ∧
    bool_decide (visible_series page = selector_series page 0) = false.
Proof. eexists _, _. split; [by vm_compute|]. by vm_compute. Qed.

(** ** The calls to the data source *)

(** C3, as the code has it. A call that returns a page has asked the data
    source for the first product, then for every product in the order of the
    list, the first one included: one call more than there are products. The
    chart drawn at first is the cumulative series of the first answer, and
    the entries of the dropdown are the cumulative series of the others. *)
Theorem fetch_calls_of_dashboard {World Exn : Type}
    (fetch : Z → M World Exn (list Row))
    (first_product : Product) (others : list Product)
    (w w' : World) (calls calls' : list Z) (page : Html) :
  create_interactive_dashboard (traced fetch) (first_product :: others) (w, calls)
  = (Returns page, (w', calls')) →
  calls'
  = calls ++ product_id first_product
             :: (product_id <$> first_product :: others) ∧
  ∃ rows0 rowss,
    fetch_all fetch
      (product_id first_product :: (product_id <$> first_product :: others)) w
    = (Returns (rows0 :: rowss), w') ∧
    length rowss = length (first_product :: others) ∧
    visible_series page = Some (series_of rows0) ∧
    target_series <$> selector page = (Some ∘ series_of) <$> rowss.
Proof.
  rewrite dashboard_run. unfold call_ids.
  destruct (fetch_all (traced fetch) _ (w, calls))
    as [[rowss|e] [w1 calls1]] eqn:Hrun; [|done].
  intros [= <- <- <-].
  destruct (traced_fetch_all_returns _ _ _ _ _ _ _ Hrun) as [Hplain ->].
  split; [done|].
  pose proof (fetch_all_length _ _ _ _ _ Hplain) as Hlen.
  destruct rowss as [|rows0 rowss]; [done|].
  simpl in Hlen. injection Hlen as Hlen. rewrite length_fmap in Hlen.
  exists rows0, rowss. split; [done|]. split; [done|].
  rewrite visible_series_dashboard_page, selector_dashboard_page.
  split; [done|].
  exact (targets_dropdown_buttons (first_product :: others) rowss Hlen).
Qed.

Lemma fetch_calls_of_dashboard_witness :
  ∃ page calls',
    create_interactive_dashboard (traced (pure_source two_products_table))
      [product_A; product_B] (tt, [])
    = (Returns page, (tt, calls')) ∧
    calls' = [] ++ [1; 1; 2].
Proof.
  eexists _, _. split; [vm_compute; reflexivity|].
  exact (proj1 (fetch_calls_of_dashboard (pure_source two_products_table)
                  product_A [product_B] tt tt [] _ _ eq_refl)).
Defined.

(** C3 fails as stated: for the one product A, the data source is asked
    twice for product 1. *)
Lemma first_product_fetched_twice :
  ∃ page,
    create_interactive_dashboard (traced (pure_source no_sales_table))
      [product_A] (tt, [])
    = (Returns page, (tt, [1; 1])).
Proof. eexists. vm_compute. reflexivity. Qed.

(** ** A query that raises *)

(** C4, as the code has it. The queries run in the order of [call_ids]; when
    those before some product have returned and the query for that product
    raises, the dashboard raises that same exception, from the state of the
    world the failed query left, and returns no page. *)
Theorem fetch_failure_propagates {World Exn : Type}
    (fetch : Z → M World Exn (list Row))
    (products : list Product) (done_ids rest : list Z) (pid : Z)
    (rowss : list (list Row)) (e : Exn) (w w1 w2 : World) :
  call_ids products = done_ids ++ pid :: rest →
  fetch_all fetch done_ids w = (Returns rowss, w1) →
  fetch pid w1 = (Raises e, w2) →
  create_interactive_dashboard fetch products w = (Raises e, w2).
Proof.
  intros Hids Hdone Hfail.
  destruct products as [|first_product others].
  - by destruct done_ids.
  - rewrite dashboard_run, Hids, fetch_all_app, Hdone, fetch_all_cons, Hfail.
    done.
Qed.

Lemma fetch_failure_propagates_witness :
  create_interactive_dashboard (pure_source third_unavailable_table)
    five_products tt
  = (Raises (DataUnavailable 3), tt).
Proof.
  apply (fetch_failure_propagates (pure_source third_unavailable_table)
           five_products [1; 1; 2] [4; 5] 3
           [[mkRow (Date 2024 1 1) 1]; [mkRow (Date 2024 1 1) 1];
            [mkRow (Date 2024 1 1) 2]]
           (DataUnavailable 3) tt tt tt);
    reflexivity.
Defined.

(** C4 fails as stated: when the query for the third of five products is
    refused by the database driver, what the dashboard raises is the driver's
    error, which is not a [DataUnavailable] and names no product. *)
Lemma driver_error_is_not_wrapped :
  create_interactive_dashboard (pure_source third_fails_table) five_products tt
  = (Raises (OperationalError "connection lost"), tt) ∧
  bool_decide (OperationalError "connection lost" = DataUnavailable 3) = false.
Proof. split; reflexivity. Qed.

(** ** The empty catalog *)

(** C5. With no product, the dashboard returns the literal page "No products
    available", which has no dropdown entry and draws no chart; the data
    source is not asked anything: the world is left as it was, and a traced
    source records no call. *)
Theorem empty_catalog_page {World Exn : Type}
    (fetch : Z → M World Exn (list Row)) (w : World) (calls : list Z) :
  create_interactive_dashboard fetch [] w
  = (Returns (Literal "<p>No products available</p>"), w) ∧
  create_interactive_dashboard (traced fetch) [] (w, calls)
  = (Returns (Literal "<p>No products available</p>"), (w, calls)) ∧
  selector (Literal "<p>No products available</p>") = [] ∧
  visible_series (Literal "<p>No products available</p>") = None.
Proof. done. Qed.

(** ** The dropdown follows the catalog *)

Lemma selector_labels {World Exn : Type} (fetch : Z → M World Exn (list Row))
    (products : list Product) (w w' : World) (page : Html) :
  create_interactive_dashboard fetch products w = (Returns page, w') →
  label <$> selector page = product_name <$> products.
Proof.
  destruct products as [|first_product others].
  - by intros [= <- _].
  - rewrite dashboard_run.
    destruct (fetch_all fetch _ w) as [[rowss|e] w1] eqn:Hrun; [|done].
    intros [= <- _]. rewrite selector_dashboard_page.
    apply (labels_dropdown_buttons (first_product :: others) (tl rowss)).
    apply fetch_all_length in Hrun. unfold call_ids in Hrun.
    destruct rowss as [|rows0 rowss]; [done|].
    simpl in *. rewrite length_fmap in Hrun. lia.
Qed.

(** C6. The page the dashboard returns has one dropdown entry per product,
    and the label of the entry of index [k] is the name of the product of
    index [k]. *)
Theorem selector_follows_catalog {World Exn : Type}
    (fetch : Z → M World Exn (list Row))
    (products : list Product) (w w' : World) (page : Html) :
  create_interactive_dashboard fetch products w = (Returns page, w') →
  length (selector page) = length products ∧
  ∀ (k : nat) (product : Product),
    products !! k = Some product →
    label <$> selector page !! k = Some (product_name product).
Proof.
  intros Hrun. apply selector_labels in Hrun. split.
  - by rewrite <-(length_fmap label), Hrun, length_fmap.
  - intros k product Hk.
    by rewrite <-list_lookup_fmap, Hrun, list_lookup_fmap, Hk.
Qed.

Lemma selector_follows_catalog_witness :
  ∃ page,
    create_interactive_dashboard (pure_source two_products_table)
      [product_A; product_B] tt = (Returns page, tt) ∧
    length (selector page) = length [product_A; product_B] ∧
    ∀ (k : nat) (product : Product),
      [product_A; product_B] !! k = Some product →
      label <$> selector page !! k = Some (product_name product).
Proof.
  eexists. split; [vm_compute; reflexivity|].
  apply (selector_follows_catalog (pure_source two_products_table)
           [product_A; product_B] tt tt).
  reflexivity.
Defined.

(** ** Worked examples *)

(** C8. Products A (id 1) and B (id 2), with sales of 10 then 5 for A and one
    sale of -3 for B: the chart drawn at first has the running totals 10 and
    15, the entry "A" of the dropdown has the same series, and the entry "B"
    has the single total -3. *)
Theorem two_products_example :
  ∃ page,
    create_interactive_dashboard (pure_source two_products_table)
      [product_A; product_B] tt = (Returns page, tt) ∧
    visible_series page
    = Some ([Date 2024 1 1; Date 2024 1 2], [10; 15]) ∧
    (λ b, (label b, target_series b)) <$> selector page
    = [("A", Some ([Date 2024 1 1; Date 2024 1 2], [10; 15]));
       ("B", Some ([Date 2024 1 1], [-3]))].
Proof. eexists. split; [vm_compute; reflexivity|]. by vm_compute. Qed.

(** C9. One product A without any recorded sale: the dashboard returns a
    page; the chart drawn at first is empty and the dropdown has the one
    entry "A", with the empty series. *)
Theorem no_sales_example :
  ∃ page,
    create_interactive_dashboard (pure_source no_sales_table) [product_A] tt
    = (Returns page, tt) ∧
    visible_series page = Some ([], []) ∧
    (λ b, (label b, target_series b)) <$> selector page
    = [("A", Some ([], []))].
Proof. eexists. split; [vm_compute; reflexivity|]. by vm_compute. Qed.


(** * Further properties of the charts *)

Lemma running_total_loop_shift (sales : list Z) (running_total : Z) :
  running_total_loop sales running_total []
  = Z.add running_total <$> running_total_loop sales 0 [].
Proof.
  revert running_total.
  induction sales as [|sale rest IH]; intros t; [done|].
  rewrite !running_total_loop_cons, (IH (t + sale)), (IH (0 + sale)).
  rewrite fmap_cons, <-list_fmap_compose.
  apply (f_equal2 cons); [lia|].
  apply list_fmap_ext. intros i total _. simpl. lia.
Qed.

Lemma running_total_loop_app (sales1 sales2 : list Z) (running_total : Z) :
  running_total_loop (sales1 ++ sales2) running_total []
  = running_total_loop sales1 running_total []
    ++ running_total_loop sales2 (fold_left Z.add sales1 running_total) [].
Proof.
  revert running_total.
  induction sales1 as [|sale rest IH]; intros t; [done|].
  rewrite <-app_comm_cons, !running_total_loop_cons, IH. done.
Qed.

(** X1. Sales recorded after the others do not change the running totals
    already drawn: the totals of two lists of amounts put end to end are the
    totals of the first list, followed by those of the second list raised by
    the sum of the first. *)
Theorem cumulative_app (sales1 sales2 : list Z) :
  cumulative (sales1 ++ sales2)
  = cumulative sales1 ++ (Z.add (sum_amounts sales1) <$> cumulative sales2).
Proof.
  unfold cumulative.
  by rewrite running_total_loop_app, (running_total_loop_shift sales2 (fold_left _ _ _)).
Qed.

Lemma differences_running_total_loop (sales : list Z) (running_total : Z) :
  differences running_total (running_total_loop sales running_total []) = sales.
Proof.
  revert running_total.
  induction sales as [|sale rest IH]; intros t; [done|].
  rewrite running_total_loop_cons. simpl. rewrite IH. f_equal. lia.
Qed.

(** X2. Nothing is lost in the running totals: the differences between each
    total drawn by [create_sales_plot] and the one before it (0 before the
    first) are the sales amounts of the rows, in order. *)
Theorem differences_of_plot (sales_data : list Row) (name : string) :
  ∃ dates totals,
    figure_series (create_sales_plot sales_data name) = Some (dates, totals) ∧
    differences 0 totals = row_sales <$> sales_data.
Proof.
  eexists _, _. split; [apply figure_series_sales_plot|].
  apply differences_running_total_loop.
Qed.

Lemma well_formed_series_of (rows : list Row) : well_formed (Some (series_of rows)).
Proof.
  eexists _, _. split; [done|].
  by rewrite cumulative_length, !length_fmap.
Qed.

Lemma well_formed_dropdown_buttons (products : list Product) (rowss : list (list Row)) :
  Forall (λ b, well_formed (target_series b))
    (zip_with dropdown_button products rowss).
Proof.
  revert rowss.
  induction products as [|product rest IH]; intros [|rows rowss]; simpl;
    try by constructor.
  constructor; [apply well_formed_series_of|apply IH].
Qed.

Lemma args_titles_dropdown_buttons (products : list Product) (rowss : list (list Row)) :
  length rowss = length products →
  args_title <$> zip_with dropdown_button products rowss
  = (chart_title ∘ product_name) <$> products.
Proof.
  revert rowss.
  induction products as [|product rest IH]; intros [|rows rowss] Hlen;
    simplify_eq/=; [done|].
  f_equal. by apply IH.
Qed.

(** The answers behind a page: what [dashboard_run] says of a call that
    returned. *)
Lemma dashboard_returned {World Exn : Type} (fetch : Z → M World Exn (list Row))
    (first_product : Product) (others : list Product)
    (w w' : World) (page : Html) :
  create_interactive_dashboard fetch (first_product :: others) w
  = (Returns page, w') →
  ∃ rows0 rowss,
    fetch_all fetch (call_ids (first_product :: others)) w
    = (Returns (rows0 :: rowss), w') ∧
    length rowss = length (first_product :: others) ∧
    page = dashboard_page first_product rows0
             (zip_with dropdown_button (first_product :: others) rowss).
Proof.
  rewrite dashboard_run.
  destruct (fetch_all fetch _ w) as [[rowss|e] w1] eqn:Hrun; [|done].
  intros [= <- <-].
  pose proof (fetch_all_length _ _ _ _ _ Hrun) as Hlen.
  destruct rowss as [|rows0 rowss]; [done|].
  simpl in Hlen. injection Hlen as Hlen. rewrite length_fmap in Hlen.
  by exists rows0, rowss.
Qed.

(** X3. Every series of a page the dashboard returns can be drawn: the chart
    drawn at first and every entry of the dropdown carry exactly one array of
    dates and one array of running totals, of the same length. *)
Theorem page_series_well_formed {World Exn : Type}
    (fetch : Z → M World Exn (list Row))
    (first_product : Product) (others : list Product)
    (w w' : World) (page : Html) :
  create_interactive_dashboard fetch (first_product :: others) w
  = (Returns page, w') →
  well_formed (visible_series page) ∧
  Forall (λ b, well_formed (target_series b)) (selector page).
Proof.
  intros Hrun.
  destruct (dashboard_returned _ _ _ _ _ _ Hrun) as (rows0 & rowss & _ & Hlen & ->).
  rewrite visible_series_dashboard_page, selector_dashboard_page.
  split; [apply well_formed_series_of|].
  apply well_formed_dropdown_buttons.
Qed.

Lemma page_series_well_formed_witness :
  ∃ page,
    create_interactive_dashboard (pure_source two_products_table)
      [product_A; product_B] tt = (Returns page, tt) ∧
    well_formed (visible_series page) ∧
    Forall (λ b, well_formed (target_series b)) (selector page).
Proof.
  eexists. split; [vm_compute; reflexivity|].
  apply (page_series_well_formed (pure_source two_products_table)
           product_A [product_B] tt tt).
  reflexivity.
Defined.

(** X4. The titles cannot drift: the title of the chart drawn at first is
    "Cumulative Sales Over Time - " followed by the name of the first
    product, and the title every entry of the dropdown sets is the same
    prefix followed by the name of its product, so that the first entry sets
    the title the page starts with. *)
Theorem page_titles {World Exn : Type}
    (fetch : Z → M World Exn (list Row))
    (first_product : Product) (others : list Product)
    (w w' : World) (page : Html) :
  create_interactive_dashboard fetch (first_product :: others) w
  = (Returns page, w') →
  page_title page = Some (chart_title (product_name first_product)) ∧
  args_title <$> selector page
  = (chart_title ∘ product_name) <$> first_product :: others ∧
  page_title page = args_title <$> selector page !! 0%nat.
Proof.
  intros Hrun.
  destruct (dashboard_returned _ _ _ _ _ _ Hrun) as (rows0 & rowss & _ & Hlen & ->).
  rewrite selector_dashboard_page.
  pose proof (args_titles_dropdown_buttons (first_product :: others) rowss Hlen)
    as Htitles.
  split; [done|]. split; [done|].
  by rewrite <-list_lookup_fmap, Htitles.
Qed.

Lemma page_titles_witness :
  ∃ page,
    create_interactive_dashboard (pure_source two_products_table)
      [product_A; product_B] tt = (Returns page, tt) ∧
    page_title page = Some (chart_title (product_name product_A)) ∧
    args_title <$> selector page
    = (chart_title ∘ product_name) <$> [product_A; product_B] ∧
    page_title page = args_title <$> selector page !! 0%nat.
Proof.
  eexists. split; [vm_compute; reflexivity|].
  apply (page_titles (pure_source two_products_table)
           product_A [product_B] tt tt).
  reflexivity.
Defined.

(** * Further properties of the calls to the data source *)

Lemma traced_fetch_all_raises {World Exn : Type}
    (fetch : Z → M World Exn (list Row)) ids w calls e w' calls' :
  fetch_all (traced fetch) ids (w, calls) = (Raises e, (w', calls')) →
  ∃ done_ids pid rest rowss w1,
    ids = done_ids ++ pid :: rest ∧
    fetch_all fetch done_ids w = (Returns rowss, w1) ∧
    fetch pid w1 = (Raises e, w') ∧
    calls' = calls ++ done_ids ++ [pid].
Proof.
  revert w calls.
  induction ids as [|pid ids IH]; intros w calls; [done|].
  rewrite (fetch_all_cons (traced fetch)). unfold traced at 1.
  destruct (fetch pid w) as [[rows|e1] w1] eqn:Hfetch.
  - destruct (fetch_all (traced fetch) ids (w1, calls ++ [pid]))
      as [[rowss|e2] [w2 calls2]] eqn:Hrest; [done|].
    intros [= <- <- <-].
    destruct (IH _ _ Hrest)
      as (done_ids & pid' & rest & rowss & w3 & -> & Hdone & Hfail & ->).
    exists (pid :: done_ids), pid', rest, (rows :: rowss), w3.
    split; [done|]. split; [by rewrite fetch_all_cons, Hfetch, Hdone|].
    split; [done|]. by rewrite <-app_assoc.
  - intros [= <- <- <-]. by exists [], pid, ids, [], w.
Qed.

(** X5. When the dashboard raises, the exception is that of a call to the
    data source, and no call follows it: the calls made are those of
    [call_ids] up to the first one that raised, all the calls before it
    having returned. *)
Theorem failure_stops_the_calls {World Exn : Type}
    (fetch : Z → M World Exn (list Row)) (products : list Product)
    (w w' : World) (calls calls' : list Z) (e : Exn) :
  create_interactive_dashboard (traced fetch) products (w, calls)
  = (Raises e, (w', calls')) →
  ∃ done_ids pid rest rowss w1,
    call_ids products = done_ids ++ pid :: rest ∧
    fetch_all fetch done_ids w = (Returns rowss, w1) ∧
    fetch pid w1 = (Raises e, w') ∧
    calls' = calls ++ done_ids ++ [pid].
Proof.
  destruct products as [|first_product others]; [done|].
  rewrite dashboard_run.
  destruct (fetch_all (traced fetch) _ (w, calls))
    as [[rowss|e1] [w1 calls1]] eqn:Hrun; [done|].
  intros [= <- <- <-]. by apply traced_fetch_all_raises.
Qed.

Lemma failure_stops_the_calls_witness :
  ∃ done_ids pid rest rowss w1,
    call_ids five_products = done_ids ++ pid :: rest ∧
    fetch_all (pure_source third_fails_table) done_ids tt = (Returns rowss, w1) ∧
    pure_source third_fails_table pid w1
    = (Raises (OperationalError "connection lost"), tt) ∧
    [1; 1; 2; 3] = [] ++ done_ids ++ [pid].
Proof.
  apply (failure_stops_the_calls (pure_source third_fails_table) five_products
           tt tt [] [1; 1; 2; 3] (OperationalError "connection lost")).
  vm_compute. reflexivity.
Defined.

Lemma fetch_all_preserves {World Exn : Type}
    (fetch : Z → M World Exn (list Row)) (R : relation World) `{!PreOrder R} :
  (∀ pid w r w', fetch pid w = (r, w') → R w w') →
  ∀ ids w r w', fetch_all fetch ids w = (r, w') → R w w'.
Proof.
  intros Hfetch ids.
  induction ids as [|pid ids IH]; intros w r w'.
  - by intros [= _ <-].
  - rewrite fetch_all_cons.
    destruct (fetch pid w) as [[rows|e] w1] eqn:Hpid.
    + destruct (fetch_all fetch ids w1) as [[rowss|e] w2] eqn:Hrest;
        intros [= _ <-]; (etrans; [by eapply Hfetch|by eapply IH]).
    + intros [= _ <-]. by eapply Hfetch.
Qed.

Lemma dashboard_keeps {World Exn : Type}
    (fetch : Z → M World Exn (list Row)) (R : relation World) `{!PreOrder R}
    (products : list Product) (w w' : World) (r : outcome Exn Html) :
  (∀ pid w0 r0 w1, fetch pid w0 = (r0, w1) → R w0 w1) →
  create_interactive_dashboard fetch products w = (r, w') →
  R w w'.
Proof.
  intros Hfetch.
  destruct products as [|first_product others]; [by intros [= _ <-]|].
  rewrite dashboard_run.
  destruct (fetch_all fetch _ w) as [[rowss|e] w1] eqn:Hrun;
    intros [= _ <-]; by eapply (fetch_all_preserves fetch R).
Qed.



(** * The database connector *)

(** Unfolds the methods of the connector down to the calls of the driver. *)
Ltac unfold_connector :=
  unfold get_all_products, get_sales_data, self_connection_cursor, connect,
    disconnect, read_connection, read_connection_params, write_connection,
    driver_call, raise, products_query, sales_query, mbind, M_bind, mret, M_ret;
  simpl.

(** Splits on the outcome of the driver calls of the goal, outermost first. *)
Ltac split_call call :=
  destruct call as [[?|?] ?] eqn:?; simpl.

Ltac split_calls :=
  repeat match goal with
    | |- context [psycopg2_connect ?d ?p ?w] => split_call (psycopg2_connect d p w)
    | |- context [connection_close ?d ?c ?w] => split_call (connection_close d c w)
    | |- context [connection_cursor ?d ?c ?w] => split_call (connection_cursor d c w)
    | |- context [cursor_execute ?d ?c ?q ?a ?w] =>
        split_call (cursor_execute d c q a w)
    | |- context [cursor_fetchall_products ?d ?c ?w] =>
        split_call (cursor_fetchall_products d c w)
    | |- context [cursor_fetchall_sales ?d ?c ?w] =>
        split_call (cursor_fetchall_sales d c w)
    | |- context [cursor_close ?d ?c ?w] => split_call (cursor_close d c w)
    end.

Section ConnectorFacts.
Context {Db Conn Cursor Exn : Type}.
Variable driver : Driver Db Conn Cursor Exn.
Implicit Types (self : DatabaseConnector Conn) (w : Db) (conn : Conn).

Lemma get_all_products_connected self conn w :
  connection self = Some conn →
  get_all_products driver (self, w)
  = let '(r, w') := products_query driver conn w in (r, (self, w')).
Proof. intros Hconn. unfold_connector. rewrite Hconn. by split_calls. Qed.

Lemma get_sales_data_connected self conn pid w :
  connection self = Some conn →
  get_sales_data driver pid (self, w)
  = let '(r, w') := sales_query driver conn pid w in (r, (self, w')).
Proof. intros Hconn. unfold_connector. rewrite Hconn. by split_calls. Qed.

Lemma connect_run self w :
  connect driver (self, w)
  = match psycopg2_connect driver (connection_params self) w with
    | (Returns conn, w') =>
        (Returns (),
         ({| connection_params := connection_params self;
             connection := Some conn |}, w'))
    | (Raises e, w') => (Raises e, (self, w'))
    end.
Proof. unfold_connector. by split_calls. Qed.

Lemma disconnect_connected self conn w :
  connection self = Some conn →
  disconnect driver (self, w)
  = match connection_close driver conn w with
    | (Returns _, w') =>
        (Returns (),
         ({| connection_params := connection_params self; connection := None |},
          w'))
    | (Raises e, w') => (Raises e, (self, w'))
    end.
Proof. intros Hconn. unfold_connector. rewrite Hconn. by split_calls. Qed.

Lemma disconnect_disconnected self w :
  connection self = None → disconnect driver (self, w) = (Returns (), (self, w)).
Proof. intros Hconn. unfold_connector. by rewrite Hconn. Qed.

(** X7. A connector that holds no connection (before [connect], after
    [disconnect]) cannot be queried: [get_all_products] and [get_sales_data]
    raise the [AttributeError] of [None.cursor], and neither the connector
    nor the database is touched. *)
Theorem queries_need_a_connection self w (pid : Z) :
  connection self = None →
  get_all_products driver (self, w)
  = (Raises (AttributeError driver "'NoneType' object has no attribute 'cursor'"),
     (self, w)) ∧
  get_sales_data driver pid (self, w)
  = (Raises (AttributeError driver "'NoneType' object has no attribute 'cursor'"),
     (self, w)).
Proof. intros Hconn. unfold_connector. by rewrite Hconn. Qed.

(** X8. [disconnect] on a connector without connection returns without any
    call to the driver. A [disconnect] that returns leaves the connector
    without connection, with the same parameters, so that a second
    [disconnect] does nothing. A [disconnect] that raises has failed in
    [close], and the connector still holds the connection. *)
Theorem disconnect_outcomes self w :
  (connection self = None →
   disconnect driver (self, w) = (Returns (), (self, w))) ∧
  (∀ self' w',
     disconnect driver (self, w) = (Returns (), (self', w')) →
     connection self' = None ∧
     connection_params self' = connection_params self ∧
     disconnect driver (self', w') = (Returns (), (self', w'))) ∧
  (∀ e self' w',
     disconnect driver (self, w) = (Raises e, (self', w')) →
     self' = self ∧
     ∃ conn, connection self = Some conn ∧
             connection_close driver conn w = (Raises e, w')).
Proof.
  split; [apply disconnect_disconnected|].
  destruct (connection self) as [conn|] eqn:Hconn.
  - rewrite (disconnect_connected _ _ _ Hconn).
    destruct (connection_close driver conn w) as [[[]|e] w1] eqn:Hclose.
    + split; [|done]. intros self' w' [= <- <-].
      split; [done|]. split; [done|]. by apply disconnect_disconnected.
    + split; [done|]. intros e' self' w' [= <- <- <-]. split; [done|]. by exists conn.
  - rewrite (disconnect_disconnected _ _ Hconn).
    split; [|done]. intros self' w' [= <- <-].
    split; [done|]. split; [done|]. by apply disconnect_disconnected.
Qed.
End ConnectorFacts.

Lemma queries_need_a_connection_witness :
  get_all_products memory_driver
    (DatabaseConnector_init "localhost" "sales_db" "postgres" "password" 5432, [])
  = (Raises (PyAttributeError "'NoneType' object has no attribute 'cursor'"),
     (DatabaseConnector_init "localhost" "sales_db" "postgres" "password" 5432, []))
  ∧
  get_sales_data memory_driver 1
    (DatabaseConnector_init "localhost" "sales_db" "postgres" "password" 5432, [])
  = (Raises (PyAttributeError "'NoneType' object has no attribute 'cursor'"),
     (DatabaseConnector_init "localhost" "sales_db" "postgres" "password" 5432, [])).
Proof.
  apply (queries_need_a_connection memory_driver
           (DatabaseConnector_init "localhost" "sales_db" "postgres" "password" 5432)
           [] 1).
  reflexivity.
Defined.



(** * The page of the application *)

(** A data source that keeps a component of the state aside runs the
    queries, and the dashboard, as the data source without it. *)
Lemma fetch_all_aside {S World Exn : Type} (s : S)
    (fetch_s : Z → M (S * World) Exn (list Row))
    (fetch : Z → M World Exn (list Row)) :
  (∀ pid w, fetch_s pid (s, w) = let '(r, w') := fetch pid w in (r, (s, w'))) →
  ∀ ids w,
    fetch_all fetch_s ids (s, w)
    = let '(r, w') := fetch_all fetch ids w in (r, (s, w')).
Proof.
  intros Hfetch ids.
  induction ids as [|pid ids IH]; intros w; [done|].
  rewrite !fetch_all_cons, Hfetch.
  destruct (fetch pid w) as [[rows|e] w1]; [|done].
  rewrite IH. by destruct (fetch_all fetch ids w1) as [[rowss|e] w2].
Qed.

Lemma dashboard_aside {S World Exn : Type} (s : S)
    (fetch_s : Z → M (S * World) Exn (list Row))
    (fetch : Z → M World Exn (list Row)) :
  (∀ pid w, fetch_s pid (s, w) = let '(r, w') := fetch pid w in (r, (s, w'))) →
  ∀ products w,
    create_interactive_dashboard fetch_s products (s, w)
    = let '(r, w') := create_interactive_dashboard fetch products w in
      (r, (s, w')).
Proof.
  intros Hfetch [|first_product others] w; [done|].
  rewrite !dashboard_run, (fetch_all_aside s fetch_s fetch Hfetch).
  by destruct (fetch_all fetch _ w) as [[rowss|e] w1].
Qed.

Section IndexFacts.
Context {Db Conn Cursor Exn : Type}.
Variable driver : Driver Db Conn Cursor Exn.

(** The body of the [try], on a connector that holds [conn]. *)
Lemma index_try_body (self : DatabaseConnector Conn) (conn : Conn) (w : Db) :
  connection self = Some conn →
  (products ← get_all_products driver;
   dashboard_html ← create_interactive_dashboard (get_sales_data driver) products;
   mret (RenderTemplateString dashboard_html)) (self, w)
  = let '(r, w') := index_body driver conn w in (r, (self, w')).
Proof.
  intros Hconn. unfold index_body, mbind, M_bind.
  rewrite (get_all_products_connected driver self conn w Hconn).
  destruct (products_query driver conn w) as [[products|e] w1]; [|done].
  rewrite (dashboard_aside self (get_sales_data driver) (sales_query driver conn)).
  - by destruct (create_interactive_dashboard _ products w1) as [[page|e] w2].
  - intros pid w0. by apply get_sales_data_connected.
Qed.

(** [index], as calls of the driver: the connection is opened, the body runs
    against it, and it is closed whatever the body did. *)
Lemma index_run (environ : gmap string string) (w : Db) :
  index driver environ w
  = match psycopg2_connect driver (index_connection_params environ) w with
    | (Raises e, w1) => (Raises e, w1)
    | (Returns conn, w1) =>
        let '(r, w2) := index_body driver conn w1 in
        match connection_close driver conn w2 with
        | (Returns _, w3) => (r, w3)
        | (Raises e, w3) => (Raises e, w3)
        end
    end.
Proof.
  unfold index.
  set (body := (products ← get_all_products driver; _)).
  set (db := DatabaseConnector_init _ _ _ _ _).
  unfold mbind, M_bind, try_finally.
  rewrite (connect_run driver db w).
  change (connection_params db) with (index_connection_params environ).
  destruct (psycopg2_connect driver (index_connection_params environ) w)
    as [[conn|e] w1]; [|done].
  set (connected := {| connection_params := index_connection_params environ;
                       connection := Some conn |}).
  subst body. rewrite (index_try_body connected conn w1 eq_refl).
  destruct (index_body driver conn w1) as [r w2].
  rewrite (disconnect_connected driver connected conn w2 eq_refl).
  by destruct (connection_close driver conn w2) as [[[]|e] w3].
Qed.
End IndexFacts.

(** ** What [index] asks the driver *)

#[global] Instance log_grows_preorder {Db Conn Cursor : Type} :
  PreOrder (@log_grows Db Conn Cursor).
Proof.
  split.
  - intros s. exists []. split; [by rewrite app_nil_r|constructor].
  - intros s1 s2 s3 (l1 & H1 & Hq1) (l2 & H2 & Hq2). exists (l1 ++ l2).
    split; [by rewrite H2, H1, app_assoc|by apply Forall_app].
Qed.


(** Closes a goal on the record of calls of one path of a query. *)
Ltac close_path :=
  intros; simplify_eq/=; eexists; (split; [by rewrite <-?app_assoc|]);
  first [done | by repeat constructor].

Section LoggedFacts.
Context {Db Conn Cursor Exn : Type}.
Variable driver : Driver Db Conn Cursor Exn.
Implicit Types (w : Db) (conn : Conn) (log : list (driver_call_record Conn Cursor)).

Lemma products_query_grows conn s r s' :
  products_query (logged driver) conn s = (r, s') → log_grows s s'.
Proof.
  destruct s as [w log], s' as [w' log'].
  unfold log_grows, products_query, mbind, M_bind, mret, M_ret; simpl.
  unfold recorded. split_calls; close_path.
Qed.

Lemma sales_query_grows conn pid s r s' :
  sales_query (logged driver) conn pid s = (r, s') → log_grows s s'.
Proof.
  destruct s as [w log], s' as [w' log'].
  unfold log_grows, sales_query, mbind, M_bind, mret, M_ret; simpl.
  unfold recorded. split_calls; close_path.
Qed.

Lemma index_body_grows conn s r s' :
  index_body (logged driver) conn s = (r, s') → log_grows s s'.
Proof.
  unfold index_body, mbind, M_bind.
  destruct (products_query (logged driver) conn s) as [[products|e] s1] eqn:Hproducts.
  - apply products_query_grows in Hproducts.
    destruct (create_interactive_dashboard _ products s1) as [[page|e] s2] eqn:Hpage;
      intros [= _ <-]; (etrans; [exact Hproducts|]);
      exact (dashboard_keeps (sales_query (logged driver) conn) log_grows
               products s1 s2 _ (sales_query_grows conn) Hpage).
  - intros [= _ <-]. by eapply products_query_grows.
Qed.




End LoggedFacts.

(** X10. [index] closes the connection it opened, once, on every path. It
    first asks the driver for a connection, with the parameters read from
    the environment (port 5432). When that raises, [index] raises the same
    exception and no other call is made. When it returns a connection, the
    last call made is the [close] of that connection, whether the queries in
    between returned or raised, and no connection is opened or closed in
    between. *)
Theorem index_closes_its_connection {Db Conn Cursor Exn : Type}
    (driver : Driver Db Conn Cursor Exn) (environ : gmap string string)
    (w w' : Db) (log log' : list (driver_call_record Conn Cursor))
    (r : outcome Exn Response) :
  index (logged driver) environ (w, log) = (r, (w', log')) →
  match psycopg2_connect driver (index_connection_params environ) w with
  | (Raises e, w1) =>
      r = Raises e ∧ w' = w1 ∧
      log' = log ++ [CallConnect (index_connection_params environ)]
  | (Returns conn, _) =>
      ∃ middle,
        log' = log ++ CallConnect (index_connection_params environ)
                      :: middle ++ [CallClose conn] ∧
        only_queries middle
  end.
Proof.
  rewrite index_run. simpl. unfold recorded at 1.
  destruct (psycopg2_connect driver (index_connection_params environ) w)
    as [[conn|e] w1].
  - destruct (index_body (logged driver) conn _) as [r2 [w2 log2]] eqn:Hbody.
    apply index_body_grows in Hbody. destruct Hbody as (middle & Hlog2 & Hmiddle).
    simpl in Hlog2. subst log2. unfold recorded.
    destruct (connection_close driver conn w2) as [[[]|e] w3];
      intros [= _ _ <-]; exists middle; by rewrite <-!app_assoc.
  - by intros [= <- <- <-].
Qed.

Lemma index_closes_its_connection_witness :
  ∃ middle,
    (index (logged memory_driver) ∅ ([], [])).2.2
    = [] ++ CallConnect (index_connection_params ∅)
            :: middle ++ [CallClose 1%nat] ∧
    only_queries middle.
Proof.
  apply (index_closes_its_connection memory_driver ∅ [] [2]
           [] (index (logged memory_driver) ∅ ([], [])).2.2
           (index (logged memory_driver) ∅ ([], [])).1).
  vm_compute. reflexivity.
Defined.



(** X12. Once the connection is open, the outcome of [index] is that of the
    queries and of the dashboard, given after the connection is closed; when
    closing raises, that exception replaces the outcome, a page included. *)
Theorem index_outcome {Db Conn Cursor Exn : Type}
    (driver : Driver Db Conn Cursor Exn) (environ : gmap string string)
    (w w1 w2 : Db) (conn : Conn) (r : outcome Exn Response) :
  psycopg2_connect driver (index_connection_params environ) w
  = (Returns conn, w1) →
  index_body driver conn w1 = (r, w2) →
  index driver environ w
  = match connection_close driver conn w2 with
    | (Returns _, w3) => (r, w3)
    | (Raises e, w3) => (Raises e, w3)
    end.
Proof. intros Hconnect Hbody. by rewrite index_run, Hconnect, Hbody. Qed.

Lemma index_outcome_witness :
  index (memory_driver_with [(1, "A")] (Some (DatabaseError "connection lost")))
    ∅ []
  = (Raises (DatabaseError "connection lost"), [1]).
Proof.
  apply (index_outcome
           (memory_driver_with [(1, "A")] (Some (DatabaseError "connection lost")))
           ∅ [] [] [1] 1%nat
           (index_body
              (memory_driver_with [(1, "A")]
                 (Some (DatabaseError "connection lost"))) 1%nat []).1).
  - reflexivity.
  - vm_compute. reflexivity.
Defined.

(** X13. With a products table without any row, [index] sends no sales
    statement: once the connection is closed, it returns the page "No
    products available". *)
Theorem index_without_products {Db Conn Cursor Exn : Type}
    (driver : Driver Db Conn Cursor Exn) (environ : gmap string string)
    (w w1 w2 : Db) (conn : Conn) :
  psycopg2_connect driver (index_connection_params environ) w
  = (Returns conn, w1) →
  products_query driver conn w1 = (Returns [], w2) →
  index driver environ w
  = match connection_close driver conn w2 with
    | (Returns _, w3) =>
        (Returns (RenderTemplateString (Literal "<p>No products available</p>")),
         w3)
    | (Raises e, w3) => (Raises e, w3)
    end.
Proof.
  intros Hconnect Hproducts.
  rewrite index_run, Hconnect. unfold index_body, mbind, M_bind.
  by rewrite Hproducts.
Qed.

Lemma index_without_products_witness :
  index (logged (memory_driver_with [] None)) ∅ ([], [])
  = (Returns (RenderTemplateString (Literal "<p>No products available</p>")),
     ([], [CallConnect (index_connection_params ∅); CallCursor 1%nat;
           CallExecute 7%nat products_sql []; CallFetchall 7%nat;
           CallCursorClose 7%nat; CallClose 1%nat])).
Proof.
  apply (index_without_products (logged (memory_driver_with [] None)) ∅
           ([], []) ([], [CallConnect (index_connection_params ∅)])
           ([], [CallConnect (index_connection_params ∅); CallCursor 1%nat;
                 CallExecute 7%nat products_sql []; CallFetchall 7%nat;
                 CallCursorClose 7%nat]) 1%nat);
    reflexivity.
Defined.
